(** * Potential-field filtering operators

    A shallow embedding of [codes/filtering.py] and of the entries of
    [codes/constants.py] that the filters relate to.

    - Python floats are IEEE-754 binary64 values: Rocq's primitive floats.
      A division of two Python floats raises [ZeroDivisionError] on a zero
      divisor; numpy's elementwise division does not raise.
    - A numpy 2-D array is its [shape] together with its samples; elementwise
      operators follow numpy's broadcasting rule and raise [ValueError] when
      the shapes are incompatible.
    - Exceptions are values of [Py.exn]; a function that may raise returns
      [Py.result].
    - The modules [auxiliars] ([aux]), [derivative] ([deriv]) and [numpy.fft]
      are not part of these sources.  Their functions are members of the
      classes [Aux], [Deriv] and [FFT]; what is known of them (each returns a
      grid of the shape of its grid arguments) is recorded in [Collaborators].
    - The elementwise scalar kernels of numpy ([exp], [sqrt], [arctan2], ...)
      are members of the class [Scalar]. *)

From Stdlib Require Import Floats.
From Stdlib Require Import Uint63.
From Stdlib Require Import ZArith String DecimalString List Bool Arith Lia.
Import ListNotations.

#[local] Set Warnings "-inexact-float".
#[local] Open Scope string_scope.

(* ------------------------------------------------------------------ *)
(** ** Python exceptions and results *)

Module Py.

Inductive exn : Type :=
| AssertionError (msg : string)
| ValueError (msg : string)
| NameError (name : string)
| UnboundLocalError (name : string)
| IndexError (msg : string)
| ZeroDivisionError (msg : string).

Inductive result (A : Type) : Type :=
| Ok (a : A)
| Raise (e : exn).

Arguments Ok {A} a.
Arguments Raise {A} e.

Definition bind {A B : Type} (m : result A) (k : A -> result B) : result B :=
  match m with
  | Ok a => k a
  | Raise e => Raise e
  end.

Definition map {A B : Type} (f : A -> B) (m : result A) : result B :=
  bind m (fun a => Ok (f a)).

(** [assert cond, msg] *)
Definition py_assert (cond : bool) (msg : string) : result unit :=
  if cond then Ok tt else Raise (AssertionError msg).

(** Reading a local name of a function body: a name that is not bound raises
    [NameError].  (The module's globals bind only [warnings], [np], [aux],
    [deriv] and the six functions.) *)
Fixpoint load_name {V : Type} (locals : list (string * V)) (name : string)
  : result V :=
  match locals with
  | [] => Raise (NameError name)
  | (n, v) :: rest => if String.eqb n name then Ok v else load_name rest name
  end.

(** Python numbers: an [int] or a [float]. *)
Inductive number : Type :=
| PyInt (z : Z)
| PyFloat (f : float).

(** The float of an integer below 2^53 in magnitude (exact there). *)
Definition float_of_Z (z : Z) : float :=
  match z with
  | Z0 => PrimFloat.zero
  | Zpos _ => PrimFloat.of_uint63 (Uint63.of_Z z)
  | Zneg _ => PrimFloat.opp (PrimFloat.of_uint63 (Uint63.of_Z (Z.opp z)))
  end.

(** [a == b] on numbers. *)
Definition num_eqb (a b : number) : bool :=
  match a, b with
  | PyInt m, PyInt n => Z.eqb m n
  | PyFloat f, PyFloat g => PrimFloat.eqb f g
  | PyInt m, PyFloat f => PrimFloat.eqb (float_of_Z m) f
  | PyFloat f, PyInt m => PrimFloat.eqb f (float_of_Z m)
  end.

(** [float(n)] *)
Definition to_float (n : number) : float :=
  match n with
  | PyInt z => float_of_Z z
  | PyFloat f => f
  end.

(** [a / b] on Python floats: a divisor that equals zero ([0.0] or [-0.0])
    raises; every other quotient is the IEEE one. *)
Definition py_truediv (a b : float) : result float :=
  if PrimFloat.eqb b 0%float
  then Raise (ZeroDivisionError "float division by zero")
  else Ok (PrimFloat.div a b).

End Py.

Export Py.

Declare Scope py_scope.
Delimit Scope py_scope with py.
Notation "x <- m ;; k" := (Py.bind m (fun x => k))
  (at level 61, m at next level, right associativity) : py_scope.
Notation "m ;;; k" := (Py.bind m (fun _ => k))
  (at level 61, right associativity) : py_scope.
#[local] Open Scope py_scope.

(* ------------------------------------------------------------------ *)
(** ** codes/constants.py (the entries the filters have a counterpart of) *)

Module Constants.

(** Tesla to nanoTesla conversion *)
Definition T2nT : number := PyFloat 1000000000.
(** NanoTesla to Tesla conversion *)
Definition nT2T : number := PyFloat 0.000000001.
(** Magnetization constant *)
Definition cm : number := PyFloat 0.0000001.
(** Gravity universal constant *)
Definition G : number := PyFloat 0.00000006673.
(** SI to mGal conversion *)
Definition si2mGal : number := PyInt 100000.
(** Earth radius (in meters) *)
Definition earth_radius : number := PyFloat 6378137.0.
(** Earth mass (in kg) *)
Definition earth_mass : number := PyFloat 5.972e24.
(** Mean density value (in g/cm^3) *)
Definition rhomean : number := PyFloat 5.514.
(** Mean volume (in km^3) *)
Definition volume : number := PyFloat 1.08321e12.
(** Escape velocity in Earth (in m/s) *)
Definition vescape : number := PyFloat 11186.
(** Length conversion *)
Definition m2km : number := PyFloat 1000.
Definition km2m : number := PyFloat 0.001.
(** Volume converson *)
Definition m3_L : number := PyFloat 0.001.
Definition L_m3 : number := PyFloat 1000.
Definition dm3_L : number := PyFloat 1.
Definition L_dm3 : number := PyFloat 1.
(** Light velocity *)
Definition c : number := PyFloat 299792458.0.
(** Planck constant (Js) *)
Definition h : number := PyFloat 6.62607015e-34.
(** Elementary charge (in Coulomb) *)
Definition ec : number := PyFloat 1.602176634e-19.
(** Mass of eletron *)
Definition me : number := PyFloat 9.1093837015e-31.
(** Electric Permitivity (in C^2/N m^2) *)
Definition epsilon0 : number := PyFloat 8.8541878128e-12.
(** Magnetic Permitivity (N.A^-2): the first of the two assignments to [mu0] *)
Definition mu0 : number := PyFloat 1.25663706212e-6.
(** Avogrado constant (mol^-1) *)
Definition a_mol : number := PyFloat 6.02214076e23.
(** Boltzman constant (J.K^-1) *)
Definition boltzman : number := PyFloat 1.380649e-23.

End Constants.

(** *** The body of the module, statement by statement

    [codes/constants.py] is a sequence of assignments [name = expression] and
    holds no [import].  Its expressions are number literals, but for the last
    one, [(4e-7)*numpy.pi]. *)

Module Exec.

(** What a global name can be bound to: a number, or a module with its
    numeric attributes. *)
Inductive value : Type :=
| VNum (n : number)
| VModule (attrs : list (string * number)).

Inductive expr : Type :=
| Num (n : number)
| Name (id : string)
| Attribute (e : expr) (attr : string)
| Mult (a b : expr).

(** The exceptions of [Py.exn], and the two more that an attribute access or
    a product can raise. *)
Inductive raised : Type :=
| Exn (e : exn)
| AttributeError (attr : string)
| TypeError (msg : string).

Definition globals : Type := list (string * value).

(** [a * b] on numbers. *)
Definition num_mul (a b : number) : number :=
  match a, b with
  | PyInt m, PyInt n => PyInt (m * n)
  | PyInt m, PyFloat f => PyFloat (float_of_Z m * f)
  | PyFloat f, PyInt n => PyFloat (f * float_of_Z n)
  | PyFloat f, PyFloat g => PyFloat (f * g)
  end.

(** Evaluation, operands from left to right.  A name is read from the
    globals; none of the attributes read here is an attribute of a number. *)
Fixpoint eval (g : globals) (e : expr) : value + raised :=
  match e with
  | Num n => inl (VNum n)
  | Name id =>
      match load_name g id with
      | Ok v => inl v
      | Raise x => inr (Exn x)
      end
  | Attribute e attr =>
      match eval g e with
      | inl (VModule attrs) =>
          match load_name attrs attr with
          | Ok n => inl (VNum n)
          | Raise _ => inr (AttributeError attr)
          end
      | inl (VNum _) => inr (AttributeError attr)
      | inr x => inr x
      end
  | Mult a b =>
      match eval g a with
      | inl va =>
          match eval g b with
          | inl vb =>
              match va, vb with
              | VNum x, VNum y => inl (VNum (num_mul x y))
              | _, _ => inr (TypeError "unsupported operand type(s) for *")
              end
          | inr x => inr x
          end
      | inr x => inr x
      end
  end.

(** [target = e]: the newest binding of a name is the one that is read. *)
Definition assign (g : globals) (target : string) (v : value) : globals :=
  (target, v) :: g.

(** Running a module body: the statements in order, up to the first that
    raises.  The outcome is the globals reached and the exception, if any. *)
Fixpoint exec (body : list (string * expr)) (g : globals)
  : globals * option raised :=
  match body with
  | [] => (g, None)
  | (target, e) :: rest =>
      match eval g e with
      | inl v => exec rest (assign g target v)
      | inr x => (g, Some x)
      end
  end.

(** The statements of [codes/constants.py], in order. *)
Definition constants_py : list (string * expr) :=
  [ ("T2nT", Num Constants.T2nT);
    ("nT2T", Num Constants.nT2T);
    ("cm", Num Constants.cm);
    ("G", Num Constants.G);
    ("si2mGal", Num Constants.si2mGal);
    ("earth_radius", Num Constants.earth_radius);
    ("earth_mass", Num Constants.earth_mass);
    ("rhomean", Num Constants.rhomean);
    ("volume", Num Constants.volume);
    ("vescape", Num Constants.vescape);
    ("m2km", Num Constants.m2km);
    ("km2m", Num Constants.km2m);
    ("m3_L", Num Constants.m3_L);
    ("L_m3", Num Constants.L_m3);
    ("dm3_L", Num Constants.dm3_L);
    ("L_dm3", Num Constants.L_dm3);
    ("c", Num Constants.c);
    ("h", Num Constants.h);
    ("ec", Num Constants.ec);
    ("me", Num Constants.me);
    ("epsilon0", Num Constants.epsilon0);
    ("mu0", Num Constants.mu0);
    ("a_mol", Num Constants.a_mol);
    ("boltzman", Num Constants.boltzman);
    ("mu0", Mult (Num (PyFloat 4e-7)) (Attribute (Name "numpy") "pi")) ].

(** The bindings that the 24 literal assignments add to the globals, the
    newest first. *)
Definition literal_bindings : globals :=
  [ ("boltzman", VNum Constants.boltzman);
    ("a_mol", VNum Constants.a_mol);
    ("mu0", VNum Constants.mu0);
    ("epsilon0", VNum Constants.epsilon0);
    ("me", VNum Constants.me);
    ("ec", VNum Constants.ec);
    ("h", VNum Constants.h);
    ("c", VNum Constants.c);
    ("L_dm3", VNum Constants.L_dm3);
    ("dm3_L", VNum Constants.dm3_L);
    ("L_m3", VNum Constants.L_m3);
    ("m3_L", VNum Constants.m3_L);
    ("km2m", VNum Constants.km2m);
    ("m2km", VNum Constants.m2km);
    ("vescape", VNum Constants.vescape);
    ("volume", VNum Constants.volume);
    ("rhomean", VNum Constants.rhomean);
    ("earth_mass", VNum Constants.earth_mass);
    ("earth_radius", VNum Constants.earth_radius);
    ("si2mGal", VNum Constants.si2mGal);
    ("G", VNum Constants.G);
    ("cm", VNum Constants.cm);
    ("nT2T", VNum Constants.nT2T);
    ("T2nT", VNum Constants.T2nT) ].

End Exec.

(* ------------------------------------------------------------------ *)
(** ** numpy: 2-D arrays, broadcasting, elementwise functions *)

(** The scalar kernels numpy applies elementwise. *)
Class Scalar (S : Type) : Type := {
  of_float : float -> S;
  of_int : Z -> S;
  s_add : S -> S -> S;
  s_mul : S -> S -> S;
  s_div : S -> S -> S;
  s_pow : S -> S -> S;
  s_exp : S -> S;
  s_sqrt : S -> S;
  s_arctan2 : S -> S -> S;
  s_real : S -> S
}.

Module Np.

Section Arrays.

Context {S : Type} {num : Scalar S}.

Record ndarray : Type := mk_ndarray {
  shape : nat * nat;
  item : nat -> nat -> S
}.

Definition shape_eqb (s t : nat * nat) : bool :=
  Nat.eqb (fst s) (fst t) && Nat.eqb (snd s) (snd t).

(** A 1-D array of floats (an inclination and a declination). *)
Definition vector : Type := list float.

Definition size (v : vector) : nat := length v.

(** Broadcasting of one axis: equal lengths, or one of them is 1. *)
Definition broadcast_dim (m n : nat) : option nat :=
  if Nat.eqb m n then Some m
  else if Nat.eqb m 1 then Some n
  else if Nat.eqb n 1 then Some m
  else None.

Definition broadcast_shapes (s t : nat * nat) : option (nat * nat) :=
  match broadcast_dim (fst s) (fst t), broadcast_dim (snd s) (snd t) with
  | Some r, Some c => Some (r, c)
  | _, _ => None
  end.

(** The sample of [a] that position [(i, j)] of a broadcast result reads. *)
Definition bitem (a : ndarray) (i j : nat) : S :=
  item a (if Nat.eqb (fst (shape a)) 1 then 0 else i)
         (if Nat.eqb (snd (shape a)) 1 then 0 else j).

(** How the broadcasting error prints a shape: ["(2,3) "]. *)
Definition nat_repr (n : nat) : string := NilEmpty.string_of_uint (Nat.to_uint n).

Definition shape_repr (s : nat * nat) : string :=
  "(" ++ nat_repr (fst s) ++ "," ++ nat_repr (snd s) ++ ") ".

(** The exception of two operands whose shapes [s] and [t] do not broadcast. *)
Definition broadcast_error (s t : nat * nat) : exn :=
  ValueError ("operands could not be broadcast together with shapes "
              ++ shape_repr s ++ shape_repr t).

(** A binary elementwise function on two arrays. *)
Definition ufunc2 (f : S -> S -> S) (a b : ndarray) : result ndarray :=
  match broadcast_shapes (shape a) (shape b) with
  | Some s => Ok {| shape := s; item := fun i j => f (bitem a i j) (bitem b i j) |}
  | None => Raise (broadcast_error (shape a) (shape b))
  end.

(** A unary elementwise function, also an array combined with a scalar. *)
Definition ufunc1 (f : S -> S) (a : ndarray) : ndarray :=
  {| shape := shape a; item := fun i j => f (item a i j) |}.

Definition add : ndarray -> ndarray -> result ndarray := ufunc2 s_add.
Definition multiply : ndarray -> ndarray -> result ndarray := ufunc2 s_mul.
Definition divide : ndarray -> ndarray -> result ndarray := ufunc2 s_div.
Definition arctan2 : ndarray -> ndarray -> result ndarray := ufunc2 s_arctan2.

Definition exp : ndarray -> ndarray := ufunc1 s_exp.
Definition sqrt : ndarray -> ndarray := ufunc1 s_sqrt.
Definition real : ndarray -> ndarray := ufunc1 s_real.

(** [a ** c], [c * a], [c / a] and [a *= c] for a scalar [c]. *)
Definition power (a : ndarray) (c : S) : ndarray := ufunc1 (fun v => s_pow v c) a.
Definition scalar_mul (c : S) (a : ndarray) : ndarray := ufunc1 (s_mul c) a.
Definition scalar_div (c : S) (a : ndarray) : ndarray := ufunc1 (s_div c) a.
Definition imul_scalar (a : ndarray) (c : S) : ndarray := ufunc1 (fun v => s_mul v c) a.

(** [a[i, j] = v] *)
Definition setitem (a : ndarray) (i j : nat) (v : S) : result ndarray :=
  if Nat.ltb i (fst (shape a)) && Nat.ltb j (snd (shape a)) then
    Ok {| shape := shape a;
          item := fun p q => if Nat.eqb p i && Nat.eqb q j then v else item a p q |}
  else Raise (IndexError "index is out of bounds").

(** The call [m] returns a grid, and that grid has shape [s]. *)
Definition returns_grid_of_shape (m : result ndarray) (s : nat * nat) : Prop :=
  exists r, m = Ok r /\ shape r = s.

End Arrays.

Arguments ndarray S : clear implicits.

End Np.

Import Np.

(* ------------------------------------------------------------------ *)
(** ** The collaborators: [aux], [deriv] and [np.fft] *)

Class Aux (S : Type) : Type := {
  wavenumber : ndarray S -> ndarray S -> ndarray S * ndarray S;
  theta : vector -> ndarray S -> ndarray S -> ndarray S
}.

Class Deriv (S : Type) : Type := {
  horzgrad : ndarray S -> ndarray S -> ndarray S -> ndarray S;
  zderiv : ndarray S -> ndarray S -> ndarray S -> Z -> ndarray S;
  totalgrad : ndarray S -> ndarray S -> ndarray S -> ndarray S
}.

Class FFT (S : Type) : Type := {
  fft2 : ndarray S -> ndarray S;
  ifft2 : ndarray S -> ndarray S
}.

(** What the operators rely on: every collaborator returns grids of the shape
    of the grids it is given. *)
Record Collaborators (S : Type) {aux : Aux S} {deriv : Deriv S} {fft : FFT S} : Prop := {
  wavenumber_shape_x : forall x y, shape x = shape y -> shape (fst (wavenumber x y)) = shape x;
  wavenumber_shape_y : forall x y, shape x = shape y -> shape (snd (wavenumber x y)) = shape y;
  theta_shape : forall v kx ky, shape kx = shape ky -> shape (theta v kx ky) = shape kx;
  horzgrad_shape : forall x y data, shape (horzgrad x y data) = shape data;
  zderiv_shape : forall x y data n, shape (zderiv x y data n) = shape data;
  totalgrad_shape : forall x y data, shape (totalgrad x y data) = shape data;
  fft2_shape : forall a, shape (fft2 a) = shape a;
  ifft2_shape : forall a, shape (ifft2 a) = shape a
}.

(* ------------------------------------------------------------------ *)
(** ** codes/filtering.py *)

(** The local constants of [pseudograv] and its scaling constant [C]. *)
Module PseudogravLocals.

#[local] Open Scope float_scope.

Definition G : float := 6.673e-11.
Definition si2mGal : float := 100000.0.
Definition t2nt : float := 1000000000.0.
Definition cm : float := 0.0000001.

(** [C = G*rho*si2mGal/(cm*mag*t2nt)]: products of Python floats, then one
    division of Python floats. *)
Definition C (rho mag : float) : result float :=
  py_truediv (G * rho * si2mGal) (cm * mag * t2nt).

End PseudogravLocals.

Module Filtering.

Section Operators.

Context {S : Type} {num : Scalar S} {aux : Aux S} {deriv : Deriv S} {fft : FFT S}.

Definition msg_height : string := "Height must be different of zero!".
Definition msg_same_shape : string := "Input arrays x, y, and data must have the same shape!".
Definition msg_inc_dec : string := "Vector must have only inclination and declination!".
Definition msg_grid_x : string := "Grid in X and data must have the same shape!".
Definition msg_grid_y : string := "Grid in Y and data must have the same shape!".
Definition msg_sizes : string := "Vectors for all directions must have same size!".
Definition msg_density : string := "Density must not be zero!".

(** [def continuation(x, y, data, H)].  The local [result] is bound in the two
    branches of the [if]/[elif] only. *)
Definition continuation (x y data : ndarray S) (H : float) : result (ndarray S) :=
  py_assert (negb (H =? 0)%float) msg_height ;;;
  let (kx, ky) := wavenumber x y in
  result <-
    (if (0 <? H)%float then
       k2 <- add (power kx (of_int 2)) (power ky (of_int 2)) ;;
       let kcont := exp (scalar_mul (of_float (- H)) (sqrt k2)) in
       result <- multiply kcont (fft2 data) ;;
       Ok (Some result)
     else if (H <? 0)%float then
       k2 <- add (power kx (of_int 2)) (power ky (of_int 2)) ;;
       let kcont := exp (scalar_mul (of_float (- H)) (sqrt k2)) in
       result <- multiply kcont (fft2 data) ;;
       Ok (Some result)
     else Ok None) ;;
  match result with
  | Some result => Ok (ifft2 result)
  | None => Raise (UnboundLocalError "result")
  end.

(** The single formula of the specification (section 4.1), without the
    branching on the sign of [H]: the operator is [exp(-H * |k|)] with
    [|k| = sqrt(kx^2 + ky^2)], applied between the two transforms. *)
Definition continuation_single_formula (x y data : ndarray S) (H : float)
  : result (ndarray S) :=
  py_assert (negb (H =? 0)%float) msg_height ;;;
  let (kx, ky) := wavenumber x y in
  k2 <- add (power kx (of_int 2)) (power ky (of_int 2)) ;;
  let operator := exp (scalar_mul (of_float (- H)) (sqrt k2)) in
  result <- multiply operator (fft2 data) ;;
  Ok (ifft2 result).

(** [def reduction(x, y, data, oldf, olds, newf, news)].  The chained
    comparison [a != b != c] is [(a != b) and (b != c)]; the two assertions
    read the names [olfd] and [olfs]. *)
Definition reduction (x y data : ndarray S) (oldf olds newf news : vector)
  : result (ndarray S) :=
  let locals := [("oldf", oldf); ("olds", olds); ("newf", newf); ("news", news)] in
  (if negb (shape_eqb (shape x) (shape y)) && negb (shape_eqb (shape y) (shape data))
   then Raise (ValueError msg_same_shape) else Ok tt) ;;;
  a <- load_name locals "olfd" ;;
  b <- load_name locals "newf" ;;
  py_assert (Nat.eqb (size a) (size b)) msg_inc_dec ;;;
  a <- load_name locals "olfs" ;;
  b <- load_name locals "news" ;;
  py_assert (Nat.eqb (size a) (size b)) msg_inc_dec ;;;
  let (kx, ky) := wavenumber x y in
  let f0 := theta oldf kx ky in
  let m0 := theta olds kx ky in
  let f1 := theta newf kx ky in
  let m1 := theta news kx ky in
  num <- multiply f1 m1 ;;
  den <- multiply f0 m0 ;;
  operator <- divide num den ;;
  operator <- setitem operator 0 0 (of_float 0) ;;
  res <- multiply operator (fft2 data) ;;
  Ok (ifft2 res).

(** [def tilt(x, y, data)] *)
Definition tilt (x y data : ndarray S) : result (ndarray S) :=
  py_assert (shape_eqb (shape x) (shape data)) msg_grid_x ;;;
  py_assert (shape_eqb (shape y) (shape data)) msg_grid_y ;;;
  let hgrad := horzgrad x y data in
  let derivz := zderiv x y data 1 in
  tilt <- arctan2 derivz hgrad ;;
  Ok tilt.

(** [def thetamap(x, y, data)] *)
Definition thetamap (x y data : ndarray S) : result (ndarray S) :=
  py_assert (shape_eqb (shape x) (shape data)) msg_grid_x ;;;
  py_assert (shape_eqb (shape y) (shape data)) msg_grid_y ;;;
  let hgrad := horzgrad x y data in
  let tgrad := totalgrad x y data in
  divide hgrad tgrad.

(** [def hyperbolictilt(x, y, data)] *)
Definition hyperbolictilt (x y data : ndarray S) : result (ndarray S) :=
  py_assert (shape_eqb (shape x) (shape data)) msg_grid_x ;;;
  py_assert (shape_eqb (shape y) (shape data)) msg_grid_y ;;;
  let hgrad := horzgrad x y data in
  let derivz := zderiv x y data 1 in
  hyptilt <- arctan2 derivz hgrad ;;
  Ok (real hyptilt).

(** [def pseudograv(x, y, data, field, source, rho, mag)].  "Conditions (2)"
    is an expression statement: the pair is built and dropped. *)
Definition pseudograv (x y data : ndarray S) (field source : vector) (rho mag : float)
  : result (ndarray S) :=
  py_assert (shape_eqb (shape x) (shape data)) msg_grid_x ;;;
  py_assert (shape_eqb (shape y) (shape data)) msg_grid_y ;;;
  let _ := (Nat.eqb (size field) (size source), msg_sizes) in
  py_assert (negb (rho =? 0)%float) msg_density ;;;
  py_assert (negb (mag =? 0)%float) msg_density ;;;
  C <- PseudogravLocals.C rho mag ;;
  let (kx, ky) := wavenumber x y in
  k2 <- add (power kx (of_int 2)) (power ky (of_int 2)) ;;
  let k := power k2 (of_float 0.5) in
  let thetaf := theta field kx ky in
  let thetas := theta source kx ky in
  ff <- multiply thetaf thetas ;;
  den <- multiply ff k ;;
  let prod := scalar_div (of_float 1) den in
  res <- multiply (fft2 data) prod ;;
  let res := imul_scalar res (of_float C) in
  Ok (ifft2 res).

End Operators.

End Filtering.

Import Filtering.

(* ------------------------------------------------------------------ *)
(** ** Sample grids and collaborators to run the operators on

    Grids of floats.  The transcendental kernels have no primitive-float
    counterpart, so [exp], [**] and [arctan2] are stand-ins here, and the
    collaborators hand back one of their grid arguments: runs on this fixture
    are read for shapes and exceptions only. *)

Module Fixture.

#[export] Instance float_scalar : Scalar float := {|
  of_float := fun f => f;
  of_int := float_of_Z;
  s_add := PrimFloat.add;
  s_mul := PrimFloat.mul;
  s_div := PrimFloat.div;
  s_pow := fun a _ => a;
  s_exp := fun a => a;
  s_sqrt := PrimFloat.sqrt;
  s_arctan2 := fun a _ => a;
  s_real := fun a => a
|}.

#[export] Instance float_aux : Aux float := {|
  wavenumber := fun x y => (x, y);
  theta := fun _ kx _ => kx
|}.

#[export] Instance float_deriv : Deriv float := {|
  horzgrad := fun _ _ data => data;
  zderiv := fun _ _ data _ => data;
  totalgrad := fun _ _ data => data
|}.

#[export] Instance float_fft : FFT float := {|
  fft2 := fun a => a;
  ifft2 := fun a => a
|}.

(** A grid of [r] rows and [c] columns whose sample at [(i, j)] is [v + i + j]. *)
Definition grid (r c : nat) (v : float) : ndarray float :=
  {| shape := (r, c);
     item := fun i j => (v + float_of_Z (Z.of_nat i) + float_of_Z (Z.of_nat j))%float |}.

Definition inc_dec : vector := [30%float; 10%float].

End Fixture.

Import Fixture.

(* ------------------------------------------------------------------ *)
(** * Properties *)

(** ** Comparisons of floats *)

Section FloatFacts.

#[local] Open Scope float_scope.

Lemma float_pos_nonzero (H : float) : (0 <? H) = true -> (H =? 0) = false.
Proof.
  rewrite FloatAxioms.ltb_spec, FloatAxioms.eqb_spec.
  unfold SpecFloat.SFltb, SpecFloat.SFeqb.
  replace (Prim2SF 0) with (SpecFloat.S754_zero false) by reflexivity.
  destruct (Prim2SF H) as [s | s | | s m e]; try destruct s; simpl; congruence.
Qed.

Lemma float_neg_nonzero (H : float) : (H <? 0) = true -> (H =? 0) = false.
Proof.
  rewrite FloatAxioms.ltb_spec, FloatAxioms.eqb_spec.
  unfold SpecFloat.SFltb, SpecFloat.SFeqb.
  replace (Prim2SF 0) with (SpecFloat.S754_zero false) by reflexivity.
  destruct (Prim2SF H) as [s | s | | s m e]; try destruct s; simpl; congruence.
Qed.

Lemma float_signed_nonzero (H : float) :
  (0 <? H) = true \/ (H <? 0) = true -> (H =? 0) = false.
Proof.
  intros [Hpos | Hneg]; auto using float_pos_nonzero, float_neg_nonzero.
Qed.

End FloatFacts.

(** ** Shapes under broadcasting *)

Section ShapeFacts.

Context {S : Type} {num : Scalar S}.

Lemma shape_eqb_eq (s t : nat * nat) : shape_eqb s t = true <-> s = t.
Proof.
  destruct s as [r c], t as [r' c']; unfold shape_eqb; simpl.
  rewrite andb_true_iff, !Nat.eqb_eq.
  split; [intros [-> ->]; reflexivity | intros E; inversion E; auto].
Qed.

Lemma shape_eqb_refl (s : nat * nat) : shape_eqb s s = true.
Proof. apply shape_eqb_eq; reflexivity. Qed.

Lemma broadcast_dim_same (n : nat) : broadcast_dim n n = Some n.
Proof. unfold broadcast_dim; rewrite Nat.eqb_refl; reflexivity. Qed.

Lemma broadcast_shapes_same (s : nat * nat) : broadcast_shapes s s = Some s.
Proof.
  destruct s as [r c]; unfold broadcast_shapes; simpl.
  rewrite !broadcast_dim_same; reflexivity.
Qed.

(** Two arrays of one shape combine into an array of that shape. *)
Lemma ufunc2_same_shape (f : S -> S -> S) (a b : ndarray S) :
  shape a = shape b ->
  exists r, ufunc2 f a b = Ok r /\ shape r = shape a.
Proof.
  intros E; unfold ufunc2; rewrite <- E, broadcast_shapes_same.
  eexists; split; reflexivity.
Qed.

(** An elementwise combination never raises anything but [ValueError]. *)
Lemma ufunc2_raises (f : S -> S -> S) (a b : ndarray S) (e : exn) :
  ufunc2 f a b = Raise e -> exists msg, e = ValueError msg.
Proof.
  unfold ufunc2, broadcast_error;
    destruct (broadcast_shapes (shape a) (shape b));
    intros E; inversion E; eauto.
Qed.

End ShapeFacts.

(** ** continuation *)

Section ContinuationFacts.

Context {S : Type} {num : Scalar S} {aux : Aux S} {deriv : Deriv S} {fft : FFT S}.

#[local] Open Scope float_scope.

(** X1: a height that is neither positive nor negative and still differs from
    zero (a NaN) passes the assertion and leaves [result] unbound: the call
    raises [UnboundLocalError], whatever the grids. *)
Lemma continuation_unordered (x y data : ndarray S) (H : float) :
  (H =? 0) = false -> (0 <? H) = false -> (H <? 0) = false ->
  continuation x y data H = Raise (UnboundLocalError "result").
Proof.
  intros E0 Epos Eneg; unfold continuation.
  rewrite E0, Epos, Eneg; simpl.
  destruct (wavenumber x y); reflexivity.
Qed.

(** C2: [continuation(x, y, data, 0)] raises the assertion error "Height must
    be different of zero!" for all grids, and for every height the call raises
    that error exactly when [H == 0.] (so never for [H != 0.]). *)
Theorem continuation_zero_height :
  (forall x y data : ndarray S,
      continuation x y data 0 = Raise (AssertionError msg_height)) /\
  (forall (x y data : ndarray S) (H : float),
      continuation x y data H = Raise (AssertionError msg_height)
      <-> (H =? 0) = true).
Proof.
  split; [reflexivity |].
  intros x y data H; unfold continuation.
  destruct (H =? 0) eqn:E0; simpl; [split; reflexivity |].
  split; [| discriminate].
  destruct (wavenumber x y) as [kx ky].
  destruct (0 <? H); [| destruct (H <? 0)]; simpl; try discriminate;
    (destruct (add _ _) as [k2 | e] eqn:Ea; simpl;
     [ destruct (multiply _ _) as [r | e] eqn:Em; simpl;
       [ discriminate
       | apply ufunc2_raises in Em; destruct Em as [m ->]; discriminate ]
     | apply ufunc2_raises in Ea; destruct Ea as [m ->]; discriminate ]).
Qed.

(** C4: for a positive and for a negative height alike, [continuation] is the
    single formula [ifft2(exp((-H) * sqrt(kx**2 + ky**2)) * fft2(data))]: the
    two sign branches of the code compute one and the same function of [H]. *)
Theorem continuation_branches_agree (x y data : ndarray S) (H : float) :
  (0 <? H) = true \/ (H <? 0) = true ->
  continuation x y data H = continuation_single_formula x y data H.
Proof.
  intros Hsign; unfold continuation, continuation_single_formula.
  destruct (py_assert (negb (H =? 0)) msg_height); simpl; [| reflexivity].
  destruct (wavenumber x y) as [kx ky].
  assert (Hbranch :
    forall m : result (ndarray S),
      Py.bind (Py.bind m (fun r => Ok (Some r)))
        (fun result => match result with
                       | Some r => Ok (ifft2 r)
                       | None => Raise (UnboundLocalError "result")
                       end)
      = Py.bind m (fun r => Ok (ifft2 r))).
  { intros [r | e]; reflexivity. }
  destruct (0 <? H) eqn:Epos.
  - destruct (add _ _) as [k2 | e]; simpl; [apply Hbranch | reflexivity].
  - destruct Hsign as [Hp | Hn]; [discriminate |]. rewrite Hn.
    destruct (add _ _) as [k2 | e]; simpl; [apply Hbranch | reflexivity].
Qed.

End ContinuationFacts.

Lemma continuation_branches_agree_witness :
  (0 <? 250)%float = true /\
  continuation (grid 2 3 0) (grid 2 3 0) (grid 2 3 7) 250
  = continuation_single_formula
      (grid 2 3 0) (grid 2 3 0) (grid 2 3 7) 250.
Proof.
  split; [reflexivity |].
  apply continuation_branches_agree; left; reflexivity.
Defined.

(** ** Shape of the output grid *)

Section ShapeInvariance.

Context {S : Type} {num : Scalar S} {aux : Aux S} {deriv : Deriv S} {fft : FFT S}.
Hypothesis collab : Collaborators S.

#[local] Open Scope float_scope.

Ltac same_shape f a b r Hr :=
  let E := fresh "E" in
  assert (E : shape a = shape b) by (simpl; congruence);
  destruct (ufunc2_same_shape f a b E) as (r & -> & Hr); simpl in Hr |- *;
  clear E.

Lemma continuation_shape (x y data : ndarray S) (H : float) :
  shape x = shape data -> shape y = shape data ->
  (0 <? H) = true \/ (H <? 0) = true ->
  exists r, continuation x y data H = Ok r /\ shape r = shape data.
Proof.
  intros Ex Ey Hsign.
  unfold continuation.
  rewrite (float_signed_nonzero H Hsign); simpl.
  assert (Exy : shape x = shape y) by congruence.
  pose proof (wavenumber_shape_x S collab x y Exy) as Hkx.
  pose proof (wavenumber_shape_y S collab x y Exy) as Hky.
  pose proof (fft2_shape S collab data) as Hf.
  destruct (wavenumber x y) as [kx ky]; simpl in Hkx, Hky.
  unfold add, multiply.
  destruct (0 <? H) eqn:Epos;
    [| destruct Hsign as [Hp | Hn]; [discriminate | rewrite Hn]];
    same_shape s_add (power kx (of_int 2)) (power ky (of_int 2)) k2 Hk2;
    same_shape s_mul (exp (scalar_mul (of_float (- H)) (sqrt k2))) (fft2 data) r Hr;
    (eexists; split; [reflexivity |]);
    rewrite (ifft2_shape S collab); congruence.
Qed.

Lemma tilt_shape (x y data : ndarray S) :
  shape x = shape data -> shape y = shape data ->
  exists r, tilt x y data = Ok r /\ shape r = shape data.
Proof.
  intros Ex Ey; unfold tilt.
  rewrite Ex, Ey, shape_eqb_refl; simpl.
  pose proof (horzgrad_shape S collab x y data) as Hh.
  pose proof (zderiv_shape S collab x y data 1) as Hz.
  unfold arctan2.
  same_shape s_arctan2 (zderiv x y data 1) (horzgrad x y data) r Hr.
  eexists; split; [reflexivity | congruence].
Qed.

Lemma thetamap_shape (x y data : ndarray S) :
  shape x = shape data -> shape y = shape data ->
  exists r, thetamap x y data = Ok r /\ shape r = shape data.
Proof.
  intros Ex Ey; unfold thetamap.
  rewrite Ex, Ey, shape_eqb_refl; simpl.
  pose proof (horzgrad_shape S collab x y data) as Hh.
  pose proof (totalgrad_shape S collab x y data) as Ht.
  unfold divide.
  same_shape s_div (horzgrad x y data) (totalgrad x y data) r Hr.
  eexists; split; [reflexivity | congruence].
Qed.

Lemma hyperbolictilt_shape (x y data : ndarray S) :
  shape x = shape data -> shape y = shape data ->
  exists r, hyperbolictilt x y data = Ok r /\ shape r = shape data.
Proof.
  intros Ex Ey; unfold hyperbolictilt.
  rewrite Ex, Ey, shape_eqb_refl; simpl.
  pose proof (horzgrad_shape S collab x y data) as Hh.
  pose proof (zderiv_shape S collab x y data 1) as Hz.
  unfold arctan2.
  same_shape s_arctan2 (zderiv x y data 1) (horzgrad x y data) r Hr.
  eexists; split; [reflexivity | simpl; congruence].
Qed.

Lemma pseudograv_shape (x y data : ndarray S) (field source : vector) (rho mag : float) :
  shape x = shape data -> shape y = shape data ->
  (rho =? 0) = false -> (mag =? 0) = false ->
  (PseudogravLocals.cm * mag * PseudogravLocals.t2nt =? 0) = false ->
  exists r, pseudograv x y data field source rho mag = Ok r /\ shape r = shape data.
Proof.
  intros Ex Ey Hrho Hmag Hdiv; unfold pseudograv.
  rewrite Ex, Ey, shape_eqb_refl, Hrho, Hmag; simpl.
  unfold PseudogravLocals.C, py_truediv; rewrite Hdiv; simpl.
  assert (Exy : shape x = shape y) by congruence.
  pose proof (wavenumber_shape_x S collab x y Exy) as Hkx.
  pose proof (wavenumber_shape_y S collab x y Exy) as Hky.
  destruct (wavenumber x y) as [kx ky]; simpl in Hkx, Hky.
  assert (Ek : shape kx = shape ky) by congruence.
  pose proof (theta_shape S collab field kx ky Ek) as Htf.
  pose proof (theta_shape S collab source kx ky Ek) as Hts.
  pose proof (fft2_shape S collab data) as Hf.
  unfold add, multiply.
  same_shape s_add (power kx (of_int 2)) (power ky (of_int 2)) k2 Hk2.
  same_shape s_mul (theta field kx ky) (theta source kx ky) ff Hff.
  same_shape s_mul ff (power k2 (of_float 0.5)) den Hden.
  same_shape s_mul (fft2 data) (scalar_div (of_float 1) den) res Hres.
  eexists; split; [reflexivity |].
  rewrite (ifft2_shape S collab); simpl; congruence.
Qed.

End ShapeInvariance.

Lemma fixture_collaborators : Collaborators float.
Proof. constructor; intros; simpl; auto. Qed.

(** C1 (amended): with collaborators that keep shapes, a data grid that has
    no axis of length zero (the transforms raise on an empty axis) and
    coordinate grids [x], [y] of the shape of [data], each of [continuation]
    (for a positive or a negative height), [tilt], [thetamap],
    [hyperbolictilt] and [pseudograv] (for a density and a magnetization that
    differ from zero, and a divisor [cm*mag*t2nt] that does not round to
    zero) returns a grid, and that grid has exactly the shape of [data]. *)
Theorem shape_invariance
  {S : Type} {num : Scalar S} {aux : Aux S} {deriv : Deriv S} {fft : FFT S} :
  Collaborators S ->
  forall x y data : ndarray S,
    fst (shape data) <> 0 -> snd (shape data) <> 0 ->
    shape x = shape data -> shape y = shape data ->
    (forall H : float, (0 <? H)%float = true \/ (H <? 0)%float = true ->
       returns_grid_of_shape (continuation x y data H) (shape data)) /\
    returns_grid_of_shape (tilt x y data) (shape data) /\
    returns_grid_of_shape (thetamap x y data) (shape data) /\
    returns_grid_of_shape (hyperbolictilt x y data) (shape data) /\
    (forall (field source : vector) (rho mag : float),
       (rho =? 0)%float = false -> (mag =? 0)%float = false ->
       (PseudogravLocals.cm * mag * PseudogravLocals.t2nt =? 0)%float = false ->
       returns_grid_of_shape (pseudograv x y data field source rho mag) (shape data)).
Proof.
  intros collab x y data _ _ Ex Ey; unfold returns_grid_of_shape.
  split; [| split; [| split; [| split]]].
  - intros H Hsign; now apply continuation_shape.
  - now apply tilt_shape.
  - now apply thetamap_shape.
  - now apply hyperbolictilt_shape.
  - intros field source rho mag Hrho Hmag Hdiv; now apply pseudograv_shape.
Qed.

Lemma shape_invariance_witness :
  Collaborators float /\
  fst (shape (grid 3 4 9)) <> 0 /\
  snd (shape (grid 3 4 9)) <> 0 /\
  shape (grid 3 4 0) = shape (grid 3 4 9) /\
  shape (grid 3 4 1) = shape (grid 3 4 9) /\
  ((forall H : float, (0 <? H)%float = true \/ (H <? 0)%float = true ->
      returns_grid_of_shape
        (continuation (grid 3 4 0) (grid 3 4 1) (grid 3 4 9) H) (3, 4)) /\
   returns_grid_of_shape (tilt (grid 3 4 0) (grid 3 4 1) (grid 3 4 9)) (3, 4) /\
   returns_grid_of_shape (thetamap (grid 3 4 0) (grid 3 4 1) (grid 3 4 9)) (3, 4) /\
   returns_grid_of_shape (hyperbolictilt (grid 3 4 0) (grid 3 4 1) (grid 3 4 9)) (3, 4) /\
   (forall (field source : vector) (rho mag : float),
      (rho =? 0)%float = false -> (mag =? 0)%float = false ->
      (PseudogravLocals.cm * mag * PseudogravLocals.t2nt =? 0)%float = false ->
      returns_grid_of_shape
        (pseudograv (grid 3 4 0) (grid 3 4 1) (grid 3 4 9) field source rho mag)
        (3, 4))).
Proof.
  split; [exact fixture_collaborators |].
  split; [simpl; lia |].
  split; [simpl; lia |].
  split; [reflexivity |].
  split; [reflexivity |].
  exact (shape_invariance fixture_collaborators
           (grid 3 4 0) (grid 3 4 1) (grid 3 4 9)
           (fun E : 3 = 0 => O_S 2 (eq_sym E)) (fun E : 4 = 0 => O_S 3 (eq_sym E))
           eq_refl eq_refl).
Defined.

(** C1 (as stated, refuted): [continuation] checks no shape.  With
    shape-keeping collaborators, coordinate grids of shape (2, 2), a data grid
    of shape (1, 2) and the height 1.0 (which passes [H != 0.]), the product
    [kcont * fft2(data)] is broadcast and the grid that comes back has shape
    (2, 2), not the shape of [data]. *)
Lemma shape_invariance_counterexample :
  Collaborators float /\
  negb (1 =? 0)%float = true /\
  shape (grid 1 2 5) = (1, 2) /\
  returns_grid_of_shape
    (continuation (grid 2 2 0) (grid 2 2 0) (grid 1 2 5) 1) (2, 2) /\
  ~ returns_grid_of_shape
      (continuation (grid 2 2 0) (grid 2 2 0) (grid 1 2 5) 1) (shape (grid 1 2 5)).
Proof.
  split; [exact fixture_collaborators |].
  split; [reflexivity |].
  split; [reflexivity |].
  split.
  - eexists; split; reflexivity.
  - intros (r & E & Hr).
    assert (E' : Py.map shape (continuation (grid 2 2 0) (grid 2 2 0) (grid 1 2 5) 1)
                 = Ok (1, 2)) by (rewrite E; simpl; rewrite Hr; reflexivity).
    vm_compute in E'; discriminate E'.
Qed.

(** ** reduction *)

Section ReductionFacts.

Context {S : Type} {num : Scalar S} {aux : Aux S} {deriv : Deriv S} {fft : FFT S}.

(** Every call of [reduction] ends in one of two exceptions: the shape error,
    when [x.shape != y.shape] and [y.shape != data.shape] both hold, and
    otherwise the [NameError] of the first assertion, which reads [olfd]. *)
Lemma reduction_outcome (x y data : ndarray S) (oldf olds newf news : vector) :
  reduction x y data oldf olds newf news =
  if negb (shape_eqb (shape x) (shape y)) && negb (shape_eqb (shape y) (shape data))
  then Raise (ValueError msg_same_shape)
  else Raise (NameError "olfd").
Proof.
  unfold reduction.
  destruct (negb (shape_eqb (shape x) (shape y)) &&
            negb (shape_eqb (shape y) (shape data))); reflexivity.
Qed.

(** X6: [reduction] raises the shape error "Input arrays x, y, and data must
    have the same shape!" exactly when [x.shape != y.shape] and
    [y.shape != data.shape] both hold (the chained comparison), so not
    whenever the three shapes are not all equal. *)
Lemma reduction_raises_shape_error_iff
  (x y data : ndarray S) (oldf olds newf news : vector) :
  reduction x y data oldf olds newf news = Raise (ValueError msg_same_shape)
  <-> shape x <> shape y /\ shape y <> shape data.
Proof.
  rewrite reduction_outcome.
  destruct (shape_eqb (shape x) (shape y)) eqn:Exy;
    destruct (shape_eqb (shape y) (shape data)) eqn:Eyd; simpl;
    repeat match goal with
           | E : shape_eqb _ _ = true |- _ => apply shape_eqb_eq in E
           | E : shape_eqb ?s ?t = false |- _ =>
               assert (s <> t)
                 by (intros Eq; apply shape_eqb_eq in Eq; congruence);
               clear E
           end;
    split; try discriminate; try tauto.
Qed.

(** C7: [reduction(x, y, data, f, s, f, s)] returns no grid at all, so it does
    not return [data]: for every input the call ends in the shape error or
    in [NameError: olfd]. *)
Theorem reduction_identity_never_returns
  (x y data : ndarray S) (f s : vector) :
  reduction x y data f s f s = Raise (ValueError msg_same_shape) \/
  reduction x y data f s f s = Raise (NameError "olfd").
Proof.
  rewrite reduction_outcome.
  destruct (negb (shape_eqb (shape x) (shape y)) &&
            negb (shape_eqb (shape y) (shape data))); [left | right]; reflexivity.
Qed.

End ReductionFacts.

(** C5: the shape check of [reduction] lets two of the mismatches through.
    With [x] of shape (2, 3) and [y], [data] of shape (2, 2), and with [x],
    [y] of shape (2, 2) and [data] of shape (3, 2), no shape error is raised:
    the call goes on to the assertions (and ends in [NameError: olfd]).  Only
    when [x] differs from [y] and [y] differs from [data] is the shape error
    raised. *)
Theorem reduction_shape_check_misses :
  reduction (grid 2 3 0) (grid 2 2 0) (grid 2 2 5) inc_dec inc_dec inc_dec inc_dec
  = Raise (NameError "olfd") /\
  reduction (grid 2 2 0) (grid 2 2 0) (grid 3 2 5) inc_dec inc_dec inc_dec inc_dec
  = Raise (NameError "olfd") /\
  reduction (grid 2 3 0) (grid 2 2 0) (grid 3 2 5) inc_dec inc_dec inc_dec inc_dec
  = Raise (ValueError msg_same_shape).
Proof. repeat split. Qed.

(** C6: the size check of [reduction] reads the unbound names [olfd] and
    [olfs].  On grids of one shape the call raises [NameError: olfd] when the
    direction vectors have equal sizes (nothing is computed), and raises the
    same [NameError], not an assertion error, when their sizes differ. *)
Theorem reduction_size_check_unbound :
  reduction (grid 2 2 0) (grid 2 2 0) (grid 2 2 5) inc_dec inc_dec inc_dec inc_dec
  = Raise (NameError "olfd") /\
  reduction (grid 2 2 0) (grid 2 2 0) (grid 2 2 5)
    inc_dec inc_dec [30%float; 10%float; 5%float] inc_dec
  = Raise (NameError "olfd") /\
  reduction (grid 2 2 0) (grid 2 2 0) (grid 2 2 5)
    inc_dec inc_dec inc_dec [30%float]
  = Raise (NameError "olfd").
Proof. repeat split. Qed.

(** ** tilt and hyperbolictilt *)

Section TiltFacts.

Context {S : Type} {num : Scalar S} {aux : Aux S} {deriv : Deriv S} {fft : FFT S}.

(** C9: [hyperbolictilt(x, y, data)] is the real part of [tilt(x, y, data)]
    (with the same two shape assertions), and [tilt] is [arctan2] of the
    first-order vertical derivative over the horizontal gradient; no
    hyperbolic function takes part. *)
Theorem hyperbolictilt_is_real_tilt (x y data : ndarray S) :
  hyperbolictilt x y data = Py.map real (tilt x y data) /\
  tilt x y data =
    (py_assert (shape_eqb (shape x) (shape data)) msg_grid_x ;;;
     py_assert (shape_eqb (shape y) (shape data)) msg_grid_y ;;;
     arctan2 (zderiv x y data 1) (horzgrad x y data)).
Proof.
  unfold hyperbolictilt, tilt, Py.map.
  destruct (py_assert (shape_eqb (shape x) (shape data)) msg_grid_x); simpl;
    [| split; reflexivity].
  destruct (py_assert (shape_eqb (shape y) (shape data)) msg_grid_y); simpl;
    [| split; reflexivity].
  destruct (arctan2 (zderiv x y data 1) (horzgrad x y data)); simpl;
    split; reflexivity.
Qed.

End TiltFacts.

(** ** The constants of pseudograv *)

(** C10 (as stated, refuted): the four constants of [pseudograv] do not all
    equal their entries in the constants table: [G] is 6.673e-11 in
    [pseudograv] and 0.00000006673 in the table. *)
Lemma pseudograv_constants_counterexample :
  ~ (num_eqb (PyFloat PseudogravLocals.G) Constants.G = true /\
     num_eqb (PyFloat PseudogravLocals.si2mGal) Constants.si2mGal = true /\
     num_eqb (PyFloat PseudogravLocals.cm) Constants.cm = true /\
     num_eqb (PyFloat PseudogravLocals.t2nt) Constants.T2nT = true).
Proof. intros [HG _]; vm_compute in HG; discriminate HG. Qed.

(** C10 (amended): when the checks of [pseudograv] pass and the divisor
    [cm * mag * t2nt] does not round to zero (else the division raises
    [ZeroDivisionError]), the grid [fft2(data) * prod] is scaled by
    [C = (G * rho * si2mGal) / (cm * mag * t2nt)] before the inverse
    transform, where [si2mGal], [cm] and [t2nt] have the values of the
    table's [si2mGal], [cm] and [T2nT] and [G] is 6.673e-11.  The three equal
    their table entries; [G] does not equal the table's [G] (0.00000006673):
    it is that value divided by 1000. *)
Theorem pseudograv_constants
  {S : Type} {num : Scalar S} {aux : Aux S} {deriv : Deriv S} {fft : FFT S}
  (x y data : ndarray S) (field source : vector) (rho mag : float) :
  shape x = shape data -> shape y = shape data ->
  (rho =? 0)%float = false -> (mag =? 0)%float = false ->
  (to_float Constants.cm * mag * to_float Constants.T2nT =? 0)%float = false ->
  pseudograv x y data field source rho mag =
    (let (kx, ky) := wavenumber x y in
     k2 <- add (power kx (of_int 2)) (power ky (of_int 2)) ;;
     ff <- multiply (theta field kx ky) (theta source kx ky) ;;
     den <- multiply ff (power k2 (of_float 0.5)) ;;
     res <- multiply (fft2 data) (scalar_div (of_float 1) den) ;;
     Ok (ifft2
           (imul_scalar res
              (of_float
                 (6.673e-11 * rho * to_float Constants.si2mGal
                  / (to_float Constants.cm * mag * to_float Constants.T2nT))%float)))) /\
  num_eqb (PyFloat PseudogravLocals.si2mGal) Constants.si2mGal = true /\
  num_eqb (PyFloat PseudogravLocals.cm) Constants.cm = true /\
  num_eqb (PyFloat PseudogravLocals.t2nt) Constants.T2nT = true /\
  num_eqb (PyFloat PseudogravLocals.G) Constants.G = false /\
  num_eqb (PyFloat (to_float Constants.G / 1000)%float) (PyFloat PseudogravLocals.G)
  = true.
Proof.
  intros Ex Ey Hrho Hmag Hdiv.
  split; [| repeat split].
  unfold pseudograv.
  rewrite Ex, Ey, shape_eqb_refl, Hrho, Hmag; simpl.
  change ((PseudogravLocals.cm * mag * PseudogravLocals.t2nt =? 0)%float = false)
    in Hdiv.
  unfold PseudogravLocals.C, py_truediv; rewrite Hdiv; simpl.
  reflexivity.
Qed.

Lemma pseudograv_constants_witness :
  shape (grid 2 2 0) = shape (grid 2 2 5) /\
  shape (grid 2 2 1) = shape (grid 2 2 5) /\
  (2.67 =? 0)%float = false /\
  (1.5 =? 0)%float = false /\
  (to_float Constants.cm * 1.5 * to_float Constants.T2nT =? 0)%float = false /\
  pseudograv (grid 2 2 0) (grid 2 2 1) (grid 2 2 5) inc_dec inc_dec 2.67 1.5 =
    (let (kx, ky) := wavenumber (grid 2 2 0) (grid 2 2 1) in
     k2 <- add (power kx (of_int 2)) (power ky (of_int 2)) ;;
     ff <- multiply (theta inc_dec kx ky) (theta inc_dec kx ky) ;;
     den <- multiply ff (power k2 (of_float 0.5)) ;;
     res <- multiply (fft2 (grid 2 2 5)) (scalar_div (of_float 1) den) ;;
     Ok (ifft2
           (imul_scalar res
              (of_float
                 (6.673e-11 * 2.67 * to_float Constants.si2mGal
                  / (to_float Constants.cm * 1.5 * to_float Constants.T2nT))%float)))).
Proof.
  split; [reflexivity |].
  split; [reflexivity |].
  split; [reflexivity |].
  split; [reflexivity |].
  split; [reflexivity |].
  exact (proj1 (pseudograv_constants
                  (grid 2 2 0) (grid 2 2 1) (grid 2 2 5) inc_dec inc_dec 2.67 1.5
                  eq_refl eq_refl eq_refl eq_refl eq_refl)).
Defined.

(* ------------------------------------------------------------------ *)
(** * Further properties of the operators *)

Lemma continuation_unordered_witness :
  (nan =? 0)%float = false /\ (0 <? nan)%float = false /\ (nan <? 0)%float = false /\
  continuation (grid 2 2 0) (grid 2 2 0) (grid 2 2 5) nan
  = Raise (UnboundLocalError "result").
Proof.
  split; [reflexivity |].
  split; [reflexivity |].
  split; [reflexivity |].
  apply (continuation_unordered (grid 2 2 0) (grid 2 2 0) (grid 2 2 5) nan);
    reflexivity.
Defined.

Lemma shape_eqb_neq (s t : nat * nat) : shape_eqb s t = false <-> s <> t.
Proof.
  rewrite <- shape_eqb_eq; destruct (shape_eqb s t); split; congruence.
Qed.

(** Turns the boolean shape tests of the context into (in)equalities. *)
Ltac shape_props :=
  repeat match goal with
         | E : shape_eqb _ _ = true |- _ => apply shape_eqb_eq in E
         | E : shape_eqb _ _ = false |- _ => apply shape_eqb_neq in E
         end.

(** Runs the elementwise operations of a goal: each returns or raises a
    [ValueError]. *)
Ltac run_ufuncs :=
  unfold add, multiply, divide, arctan2;
  repeat match goal with
         | |- context [Py.bind (ufunc2 ?f ?a ?b) _] =>
             let E := fresh "E" in
             destruct (ufunc2 f a b) eqn:E;
             [| apply ufunc2_raises in E; destruct E as [? ->]]; simpl
         | |- context [ufunc2 ?f ?a ?b] =>
             let E := fresh "E" in
             destruct (ufunc2 f a b) eqn:E;
             [| apply ufunc2_raises in E; destruct E as [? ->]]; simpl
         end.

Ltac settle :=
  shape_props;
  repeat split; intros;
  repeat match goal with
         | E : _ /\ _ |- _ => destruct E
         | E : _ \/ _ |- _ => destruct E
         end;
  try discriminate; try congruence; try tauto.

Section OperatorPreconditions.

Context {S : Type} {num : Scalar S} {aux : Aux S} {deriv : Deriv S} {fft : FFT S}.

#[local] Open Scope float_scope.

(** X2: with shape-keeping collaborators, coordinate grids [x], [y] of one
    shape, no axis of length zero in [x] or [data] (the transforms raise on
    an empty axis) and a positive or negative height, [continuation] never
    checks [data] against the coordinate grids: when the shapes of [x] and
    [data] broadcast, a grid of the broadcast shape comes back, and when they
    do not, the product [kcont * fft2(data)] raises numpy's [ValueError]
    "operands could not be broadcast together with shapes ...", which names
    the shape of [x] and then the shape of [data]. *)
Theorem continuation_broadcast (x y data : ndarray S) (H : float) :
  Collaborators S ->
  shape x = shape y ->
  fst (shape x) <> 0%nat -> snd (shape x) <> 0%nat ->
  fst (shape data) <> 0%nat -> snd (shape data) <> 0%nat ->
  (0 <? H) = true \/ (H <? 0) = true ->
  match broadcast_shapes (shape x) (shape data) with
  | Some s => returns_grid_of_shape (continuation x y data H) s
  | None => continuation x y data H
            = Raise (broadcast_error (shape x) (shape data))
  end.
Proof.
  intros collab Exy _ _ _ _ Hsign.
  unfold returns_grid_of_shape, continuation.
  rewrite (float_signed_nonzero H Hsign); simpl.
  pose proof (wavenumber_shape_x S collab x y Exy) as Hkx.
  pose proof (wavenumber_shape_y S collab x y Exy) as Hky.
  pose proof (fft2_shape S collab data) as Hf.
  destruct (wavenumber x y) as [kx ky]; simpl in Hkx, Hky.
  assert (Ek : shape (power kx (of_int 2)) = shape (power ky (of_int 2)))
    by (simpl; congruence).
  unfold add.
  destruct (ufunc2_same_shape s_add _ _ Ek) as (k2 & Ea & Hk2); simpl in Hk2.
  assert (Hop : forall r : result (ndarray S),
             r = multiply (exp (scalar_mul (of_float (- H)) (sqrt k2))) (fft2 data) ->
             match broadcast_shapes (shape x) (shape data) with
             | Some s => exists g, r = Ok g /\ shape g = s
             | None => r = Raise (broadcast_error (shape x) (shape data))
             end).
  { intros r ->; unfold multiply, ufunc2; simpl.
    rewrite Hk2, Hkx, Hf.
    destruct (broadcast_shapes (shape x) (shape data));
      [eexists; split; reflexivity | reflexivity]. }
  specialize (Hop _ eq_refl).
  destruct (0 <? H) eqn:Epos;
    [| destruct Hsign as [Hp | Hn]; [discriminate | rewrite Hn]];
    rewrite Ea; simpl;
    destruct (broadcast_shapes (shape x) (shape data)) as [s |];
    try (destruct Hop as (g & -> & Hg); simpl; eexists; split;
         [reflexivity | rewrite (ifft2_shape S collab); exact Hg]);
    rewrite Hop; reflexivity.
Qed.

(** X3: [tilt], [thetamap] and [hyperbolictilt] raise the assertion error
    "Grid in X and data must have the same shape!" exactly when
    [x.shape != data.shape], and "Grid in Y and data must have the same
    shape!" exactly when [x.shape == data.shape] and [y.shape != data.shape]:
    [x] is checked first. *)
Theorem tilt_family_shape_assertions (x y data : ndarray S) :
  (tilt x y data = Raise (AssertionError msg_grid_x) <-> shape x <> shape data) /\
  (tilt x y data = Raise (AssertionError msg_grid_y)
   <-> shape x = shape data /\ shape y <> shape data) /\
  (thetamap x y data = Raise (AssertionError msg_grid_x) <-> shape x <> shape data) /\
  (thetamap x y data = Raise (AssertionError msg_grid_y)
   <-> shape x = shape data /\ shape y <> shape data) /\
  (hyperbolictilt x y data = Raise (AssertionError msg_grid_x)
   <-> shape x <> shape data) /\
  (hyperbolictilt x y data = Raise (AssertionError msg_grid_y)
   <-> shape x = shape data /\ shape y <> shape data).
Proof.
  unfold tilt, thetamap, hyperbolictilt.
  destruct (shape_eqb (shape x) (shape data)) eqn:Ex;
    destruct (shape_eqb (shape y) (shape data)) eqn:Ey; simpl;
    run_ufuncs; settle.
Qed.

(** X4: [pseudograv] raises "Grid in X ..." exactly when
    [x.shape != data.shape]; "Grid in Y ..." exactly when [x] matches and
    [y.shape != data.shape]; and "Density must not be zero!" exactly when both
    shapes match and [rho == 0.] or [mag == 0.] (the same message for the
    magnetization). *)
Theorem pseudograv_preconditions
  (x y data : ndarray S) (field source : vector) (rho mag : float) :
  (pseudograv x y data field source rho mag = Raise (AssertionError msg_grid_x)
   <-> shape x <> shape data) /\
  (pseudograv x y data field source rho mag = Raise (AssertionError msg_grid_y)
   <-> shape x = shape data /\ shape y <> shape data) /\
  (pseudograv x y data field source rho mag = Raise (AssertionError msg_density)
   <-> shape x = shape data /\ shape y = shape data /\
       ((rho =? 0) = true \/ (mag =? 0) = true)).
Proof.
  unfold pseudograv, PseudogravLocals.C, py_truediv.
  destruct (shape_eqb (shape x) (shape data)) eqn:Ex;
    destruct (shape_eqb (shape y) (shape data)) eqn:Ey; simpl;
    destruct (rho =? 0) eqn:Erho; destruct (mag =? 0) eqn:Emag; simpl;
    try destruct (PseudogravLocals.cm * mag * PseudogravLocals.t2nt =? 0); simpl;
    try destruct (wavenumber x y) as [kx ky];
    run_ufuncs; settle.
Qed.

(** X5: the comparison [field.size == source.size] of [pseudograv] is never
    enforced: no call raises the error "Vectors for all directions must have
    same size!", whatever the sizes of the two direction vectors. *)
Theorem pseudograv_sizes_not_enforced
  (x y data : ndarray S) (field source : vector) (rho mag : float) :
  pseudograv x y data field source rho mag <> Raise (AssertionError msg_sizes).
Proof.
  unfold pseudograv, PseudogravLocals.C, py_truediv.
  destruct (shape_eqb (shape x) (shape data));
    destruct (shape_eqb (shape y) (shape data)); simpl;
    destruct (rho =? 0); destruct (mag =? 0); simpl;
    try destruct (PseudogravLocals.cm * mag * PseudogravLocals.t2nt =? 0); simpl;
    try destruct (wavenumber x y) as [kx ky];
    run_ufuncs; discriminate.
Qed.

End OperatorPreconditions.

Lemma continuation_broadcast_witness :
  Collaborators float /\
  shape (grid 2 3 0) = shape (grid 2 3 1) /\
  fst (shape (grid 2 3 0)) <> 0 /\ snd (shape (grid 2 3 0)) <> 0 /\
  fst (shape (grid 2 2 5)) <> 0 /\ snd (shape (grid 2 2 5)) <> 0 /\
  ((0 <? 1)%float = true \/ (1 <? 0)%float = true) /\
  continuation (grid 2 3 0) (grid 2 3 1) (grid 2 2 5) 1
  = Raise (ValueError
             "operands could not be broadcast together with shapes (2,3) (2,2) ").
Proof.
  split; [exact fixture_collaborators |].
  split; [reflexivity |].
  split; [simpl; lia |].
  split; [simpl; lia |].
  split; [simpl; lia |].
  split; [simpl; lia |].
  split; [left; reflexivity |].
  exact (continuation_broadcast (grid 2 3 0) (grid 2 3 1) (grid 2 2 5) 1
           fixture_collaborators eq_refl
           (fun E : 2 = 0 => O_S 1 (eq_sym E)) (fun E : 3 = 0 => O_S 2 (eq_sym E))
           (fun E : 2 = 0 => O_S 1 (eq_sym E)) (fun E : 2 = 0 => O_S 1 (eq_sym E))
           (or_introl eq_refl)).
Defined.

(* ------------------------------------------------------------------ *)
(** * Properties of the constants module *)

(** X7: [codes/constants.py] cannot be run to its end.  From any globals in
    which [numpy] is not bound (the module imports nothing): the statements
    before the last, the 24 literal assignments, run without an exception and
    leave each name bound to its literal; the whole module then stops at its
    25th and last statement, [mu0 = (4e-7)*numpy.pi], with [NameError: numpy],
    in exactly those globals, so that [mu0] still holds the literal of the
    first assignment to it. *)
Theorem constants_import_fails (g : Exec.globals) :
  load_name g "numpy" = Raise (NameError "numpy") ->
  length Exec.constants_py = 25 /\
  Exec.exec (removelast Exec.constants_py) g = ((Exec.literal_bindings ++ g)%list, None) /\
  Exec.eval (Exec.literal_bindings ++ g)%list
    (snd (last Exec.constants_py ("", Exec.Num (PyInt 0))))
  = inr (Exec.Exn (NameError "numpy")) /\
  Exec.exec Exec.constants_py g
  = ((Exec.literal_bindings ++ g)%list, Some (Exec.Exn (NameError "numpy"))) /\
  load_name (Exec.literal_bindings ++ g)%list "mu0" = Ok (Exec.VNum Constants.mu0).
Proof.
  intros Hunbound.
  split; [reflexivity |].
  split; [reflexivity |].
  split; [simpl; rewrite Hunbound; reflexivity |].
  split; [| reflexivity].
  unfold Exec.constants_py; simpl.
  rewrite Hunbound; reflexivity.
Qed.

Lemma constants_import_fails_witness :
  load_name (@nil (string * Exec.value)) "numpy" = Raise (NameError "numpy") /\
  Exec.exec Exec.constants_py []
  = ((Exec.literal_bindings ++ [])%list, Some (Exec.Exn (NameError "numpy"))).
Proof.
  split; [reflexivity |].
  exact (proj1 (proj2 (proj2 (proj2 (constants_import_fails [] eq_refl))))).
Defined.

(** X8: the paired conversion factors of the table are reciprocal in
    binary64 arithmetic: [T2nT * nT2T], [m2km * km2m], [m3_L * L_m3] and
    [dm3_L * L_dm3] each equal 1 exactly. *)
Theorem conversion_pairs_reciprocal :
  num_eqb (Exec.num_mul Constants.T2nT Constants.nT2T) (PyInt 1) = true /\
  num_eqb (Exec.num_mul Constants.m2km Constants.km2m) (PyInt 1) = true /\
  num_eqb (Exec.num_mul Constants.m3_L Constants.L_m3) (PyInt 1) = true /\
  num_eqb (Exec.num_mul Constants.dm3_L Constants.L_dm3) (PyInt 1) = true.
Proof. repeat split. Qed.

(* ------------------------------------------------------------------ *)
(** * The division of pseudograv *)

(** X9: when the checks of [pseudograv] pass ([rho] and [mag] differ from
    zero) but the divisor [cm * mag * t2nt] rounds to zero, as it does for a
    magnetization of very small magnitude, the float division that computes
    [C] raises [ZeroDivisionError] and no grid is returned. *)
Theorem pseudograv_zero_division
  {S : Type} {num : Scalar S} {aux : Aux S} {deriv : Deriv S} {fft : FFT S}
  (x y data : ndarray S) (field source : vector) (rho mag : float) :
  shape x = shape data -> shape y = shape data ->
  (rho =? 0)%float = false -> (mag =? 0)%float = false ->
  (PseudogravLocals.cm * mag * PseudogravLocals.t2nt =? 0)%float = true ->
  pseudograv x y data field source rho mag
  = Raise (ZeroDivisionError "float division by zero").
Proof.
  intros Ex Ey Hrho Hmag Hdiv; unfold pseudograv.
  rewrite Ex, Ey, shape_eqb_refl, Hrho, Hmag; simpl.
  unfold PseudogravLocals.C, py_truediv; rewrite Hdiv; reflexivity.
Qed.

Lemma pseudograv_zero_division_witness :
  shape (grid 2 2 0) = shape (grid 2 2 5) /\
  shape (grid 2 2 1) = shape (grid 2 2 5) /\
  (2.67 =? 0)%float = false /\
  (1e-320 =? 0)%float = false /\
  (PseudogravLocals.cm * 1e-320 * PseudogravLocals.t2nt =? 0)%float = true /\
  pseudograv (grid 2 2 0) (grid 2 2 1) (grid 2 2 5) inc_dec inc_dec 2.67 1e-320
  = Raise (ZeroDivisionError "float division by zero").
Proof.
  split; [reflexivity |].
  split; [reflexivity |].
  split; [reflexivity |].
  split; [reflexivity |].
  split; [reflexivity |].
  exact (pseudograv_zero_division
           (grid 2 2 0) (grid 2 2 1) (grid 2 2 5) inc_dec inc_dec 2.67 1e-320
           eq_refl eq_refl eq_refl eq_refl eq_refl).
Defined.
